(** * Anatomical template workflow: construction of the processing graph

    Shallow embedding of [init_anat_template_wf]
    (nibabies/workflows/anatomical/preproc.py).  The Python function
    allocates node objects, wires them into a workflow with
    [wf.connect], mutates the inputs of one node after it has been
    wired, and returns the workflow.  It is embedded as a computation
    in a state-and-exception monad over a store of node objects and
    the workflow under construction. *)

From Stdlib Require Import ZArith Ascii DecimalString Lia.
From stdpp Require Import base option list strings.

Local Open Scope string_scope.
Local Open Scope Z_scope.

(** ** Python values that occur as node inputs and on edges *)

#[warnings="-register-all"]
Inductive PyVal : Type :=
| VNone
| VBool (b : bool)
| VInt (z : Z)
| VFloat (mantissa exponent : Z)   (* decimal literal: mantissa * 10^exponent *)
| VStr (s : string)
| VList (l : list PyVal).

(** A text is kept as its UTF-8 bytes.  A byte of the form 10xxxxxx
    continues a code point; every other byte starts one. *)
Definition starts_code_point (c : ascii) : bool :=
  negb (N.eqb (N.land (N_of_ascii c) 192) 128).

(** The number of code points of a text. *)
Fixpoint py_str_len (s : string) : nat :=
  match s with
  | EmptyString => O
  | String c rest => ((if starts_code_point c then 1 else 0) + py_str_len rest)%nat
  end.

(** [len(x)]: the number of elements of a list, the number of code
    points of a text, a [TypeError] otherwise. *)
Definition py_len (v : PyVal) : option Z :=
  match v with
  | VList l => Some (Z.of_nat (length l))
  | VStr s => Some (Z.of_nat (py_str_len s))
  | _ => None
  end.

(** [min(a, b)] on integers: the first argument unless the second is
    strictly smaller. *)
Definition py_min (a b : Z) : Z := if b <? a then b else a.

(** [bool] used as an [int]: [True] is 1 and [False] is 0. *)
Definition py_int_of_bool (b : bool) : Z := if b then 1 else 0.

(** [[x] * k]: [k] copies, none when [k <= 0]. *)
Definition py_list_repeat (x : PyVal) (k : Z) : list PyVal :=
  replicate (Z.to_nat k) x.

(** [str(n)] for an integer. *)
Definition py_str_of_int (n : Z) : string :=
  NilZero.string_of_int (Z.to_int n).

(** ** Keyword arguments and attribute tables

    Keyword arguments and the attributes of an [inputs] object are kept
    in the order they are written, as a Python [dict] keeps them. *)

Fixpoint assoc_get {V : Type} (k : string) (l : list (string * V)) : option V :=
  match l with
  | [] => None
  | (k', v) :: l' => if String.eqb k' k then Some v else assoc_get k l'
  end.

(** Assignment: an existing key keeps its place, a new key goes last. *)
Fixpoint assoc_set {V : Type} (k : string) (v : V) (l : list (string * V))
    : list (string * V) :=
  match l with
  | [] => [(k, v)]
  | (k', v') :: l' =>
      if String.eqb k' k then (k, v) :: l' else (k', v') :: assoc_set k v l'
  end.

(** ** Nodes, edges, workflow *)

(** The interface classes the builder instantiates.  [IdentityInterface]
    carries the fields it declares and [Merge] its number of inputs;
    the keyword arguments of the others are kept in the node's
    [inputs]. *)
Inductive InterfaceClass : Type :=
| IdentityInterface (fields : list string)
| Select
| Merge (numinputs : Z)
| TemplateDimensions
| Conform
| PatchedLTAConvert
| IntensityClip
| N4BiasFieldCorrection
| StructuralReference
| Reorient
| ConcatenateXFMs.

(** A node object.  [iterfield] is [None] for [pe.Node] and the list of
    iterated input fields for [pe.MapNode] (a single field name given
    as a string is that one-element list).  [mem_gb] and [n_procs] are
    [None] when the constructor call does not pass them. *)
Record Node : Type := mkNode {
  node_name : string;
  interface : InterfaceClass;
  inputs : list (string * PyVal);
  iterfield : option (list string);
  mem_gb : option Z;
  n_procs : option Z;
  run_without_submitting : bool
}.

(** Functions attached to the source end of a connection. *)
Inductive ConnFn : Type :=
| Fn_set_threads     (* the local function [_set_threads] *)
| Fn_add_suffix.     (* [niworkflows.utils.misc.add_suffix] *)

(** The source end of a connection: a port name, or a tuple
    [(port, function, extra arguments...)]. *)
Inductive Source : Type :=
| Port (p : string)
| PortFn (p : string) (f : ConnFn) (args : list PyVal).

Definition source_port (s : Source) : string :=
  match s with Port p => p | PortFn p _ _ => p end.

(** One edge: [src.src_out -> dst.dst_in].  Nodes are referred to by
    name; the node objects live in the store. *)
Record Edge : Type := mkEdge {
  src : string;
  src_out : Source;
  dst : string;
  dst_in : string
}.

Record Workflow : Type := mkWorkflow {
  wf_name : string;
  wf_desc : option string;          (* [__desc__] *)
  wf_nodes : list string;           (* nodes of the graph, by name *)
  wf_edges : list Edge
}.

(** The state the builder runs in: every node object allocated so far,
    keyed by its name (the names are pairwise distinct in this
    function), and the workflow [wf]. *)
Record BuildState : Type := mkState {
  store : list (string * Node);
  wf : Workflow
}.

(** ** The builder monad *)

Inductive PyExn : Type :=
| Exception (msg : string).

Definition M (A : Type) : Type := BuildState → PyExn + (A * BuildState).

#[local] Instance M_ret : MRet M := λ A x s, inr (x, s).
#[local] Instance M_bind : MBind M := λ A B f m s,
  match m s with
  | inl e => inl e
  | inr (x, s') => f x s'
  end.

Definition get_state : M BuildState := λ s, inr (s, s).
Definition put_state (s : BuildState) : M unit := λ _, inr (tt, s).

(** [pe.Node(...)] / [pe.MapNode(...)]: allocate the object and hand
    back a reference to it. *)
Definition new_node (n : Node) : M string :=
  s ← get_state;
  put_state (mkState (assoc_set (node_name n) n (store s)) (wf s));;
  mret (node_name n).

Definition node_set_input (field : string) (v : PyVal) (n : Node) : Node :=
  mkNode (node_name n) (interface n) (assoc_set field v (inputs n)) (iterfield n)
         (mem_gb n) (n_procs n) (run_without_submitting n).

(** [node.inputs.<field> = value] on an existing object: the object is
    changed in the store, so the change shows in every graph that
    refers to it. *)
Definition set_input (ref field : string) (v : PyVal) : M unit :=
  s ← get_state;
  put_state
    (mkState
       (match assoc_get ref (store s) with
        | Some n => assoc_set ref (node_set_input field v n) (store s)
        | None => store s
        end)
       (wf s)).

(** [wf.__desc__ = text] *)
Definition set_desc (text : string) : M unit :=
  s ← get_state;
  put_state
    (mkState (store s)
       (mkWorkflow (wf_name (wf s)) (Some text) (wf_nodes (wf s)) (wf_edges (wf s)))).

Definition add_node (ref : string) (w : Workflow) : Workflow :=
  if bool_decide (ref ∈ wf_nodes w) then w
  else mkWorkflow (wf_name w) (wf_desc w) (wf_nodes w ++ [ref]) (wf_edges w).

Definition add_edge (e : Edge) (w : Workflow) : Workflow :=
  mkWorkflow (wf_name w) (wf_desc w) (wf_nodes w) (wf_edges w ++ [e]).

(** One [(srcnode, destnode, [(source, dest), ...])] entry of a
    connection list. *)
Definition connect_entry (c : string * string * list (Source * string))
    (w : Workflow) : Workflow :=
  let '(s, d, ports) := c in
  foldl (λ w' p, add_edge (mkEdge s p.1 d p.2) w') (add_node d (add_node s w)) ports.

(** [wf.connect([...])]: both end nodes join the graph, one edge is
    recorded per port pair, in the order written. *)
Definition connect (cs : list (string * string * list (Source * string))) : M unit :=
  s ← get_state;
  put_state (mkState (store s) (foldl (λ w c, connect_entry c w) (wf s) cs)).

Definition pe_Node (i : InterfaceClass) (ins : list (string * PyVal)) (name : string) : M string :=
  new_node (mkNode name i ins None None None false).

Definition pe_MapNode (i : InterfaceClass) (ins : list (string * PyVal))
    (iter : list string) (name : string) : M string :=
  new_node (mkNode name i ins (Some iter) None None false).

(** ** What the builder reads from outside its arguments *)

(** [fs_looseversion] is the value of [fs.Info().looseversion()],
    [None] standing for a value that counts as false; [get_file] is
    [nibabies.utils.misc.get_file], the locator of packaged data
    files, which is not part of this module. *)
Record Env : Type := mkEnv {
  fs_looseversion : option string;
  get_file : string → string → string
}.

(** The keyword-only arguments of [init_anat_template_wf]. *)
Record Args : Type := mkArgs {
  contrast : string;
  num_files : Z;
  omp_nthreads : Z;
  longitudinal : bool;
  bspline_fitting_distance : Z;
  sloppy : bool;
  name : string
}.

(** A call that passes only the three required arguments. *)
Definition default_args (contrast : string) (num_files omp_nthreads : Z) : Args :=
  mkArgs contrast num_files omp_nthreads false 200 false "anat_template_wf".

(** ** The thread-budget function *)

(** [def _set_threads(in_list, maximum): return min(len(in_list), maximum)] *)
Definition _set_threads (in_list : PyVal) (maximum : Z) : option Z :=
  n ← py_len in_list; Some (py_min n maximum).

(** ** The builder *)

Definition newline : string := String "010"%char "".

Definition desc_text (env : Env) (a : Args) : string :=
  let fs_ver := default "<ver>" (fs_looseversion env) in
  "An anatomical " +:+ contrast a
    +:+ "-reference map was computed after registration of" +:+ newline
    +:+ py_str_of_int (num_files a) +:+ " " +:+ contrast a
    +:+ " images (after INU-correction) using" +:+ newline
    +:+ "`mri_robust_template` [FreeSurfer " +:+ fs_ver +:+ ", @fs_template]."
    +:+ newline.

(** The statements of the function after [wf = LiterateWorkflow(name=name)],
    in source order. *)
Definition init_anat_template_wf_body (env : Env) (a : Args) : M unit :=
  (if 1 <? num_files a then set_desc (desc_text env a) else mret tt);;
  inputnode ← pe_Node (IdentityInterface ["anat_files"]) [] "inputnode";
  outputnode ← pe_Node
    (IdentityInterface ["out_file"; "valid_list"; "realign_xfms"; "out_report"])
    [] "outputnode";
  anat_ref_dimensions ← pe_Node TemplateDimensions [] "anat_ref_dimensions";
  anat_conform ← pe_MapNode Conform [] ["in_file"] "anat_conform";
  connect [
    (inputnode, anat_ref_dimensions, [(Port "anat_files", "t1w_list")]);
    (anat_ref_dimensions, anat_conform, [
       (Port "t1w_valid_list", "in_file");
       (Port "target_zooms", "target_zooms");
       (Port "target_shape", "target_shape")]);
    (anat_ref_dimensions, outputnode, [
       (Port "out_report", "out_report");
       (Port "t1w_valid_list", "anat_valid_list")])
  ];;
  if num_files a =? 1 then
    get1st ← pe_Node Select [("index", VList [VInt 0])] "get1st";
    set_input outputnode "anat_realign_xfm"
      (VList [VStr (get_file env "smriprep" "data/itkIdentityTransform.txt")]);;
    connect [
      (anat_conform, get1st, [(Port "out_file", "inlist")]);
      (get1st, outputnode, [(Port "out", "anat_ref")])
    ]
  else
    anat_conform_xfm ← pe_MapNode PatchedLTAConvert
      [("in_lta", VStr "identity.nofile"); ("out_lta", VBool true)]
      ["source_file"; "target_file"] "anat_conform_xfm";
    clip_preinu ← pe_MapNode IntensityClip [("p_min", VInt 50)]
      ["in_file"] "clip_preinu";
    n4_correct ← new_node
      (mkNode "n4_correct" N4BiasFieldCorrection
         [("dimension", VInt 3);
          ("save_bias", VBool false);
          ("copy_header", VBool true);
          ("n_iterations",
             VList (py_list_repeat (VInt 50) (5 - 2 * py_int_of_bool (sloppy a))));
          ("convergence_threshold", VFloat 1 (-7));
          ("shrink_factor", VInt 4);
          ("bspline_fitting_distance", VInt (bspline_fitting_distance a))]
         (Some ["input_image"]) None (Some 1) false);
    anat_merge ← new_node
      (mkNode "anat_merge" StructuralReference
         [("auto_detect_sensitivity", VBool true);
          ("initial_timepoint", VInt 1);
          ("intensity_scaling", VBool true);
          ("subsample_threshold", VInt 200);
          ("fixed_timepoint", VBool (negb (longitudinal a)));
          ("no_iteration", VBool (negb (longitudinal a)));
          ("transform_outputs", VBool true)]
         None (Some (2 * num_files a - 1)) None false);
    anat_reorient ← pe_Node Reorient [] "anat_reorient";
    merge_xfm ← new_node
      (mkNode "merge_xfm" (Merge 2) [] (Some ["in1"; "in2"]) None None true);
    concat_xfms ← new_node
      (mkNode "concat_xfms" ConcatenateXFMs [("inverse", VBool true)]
         (Some ["in_xfms"]) None None true);
    connect [
      (anat_ref_dimensions, anat_conform_xfm, [(Port "t1w_valid_list", "source_file")]);
      (anat_conform, anat_conform_xfm, [(Port "out_file", "target_file")]);
      (anat_conform, clip_preinu, [(Port "out_file", "in_file")]);
      (anat_conform, anat_merge, [
         (PortFn "out_file" Fn_set_threads [VInt (omp_nthreads a)], "num_threads");
         (PortFn "out_file" Fn_add_suffix [VStr "_template"], "out_file")]);
      (clip_preinu, n4_correct, [(Port "out_file", "input_image")]);
      (n4_correct, anat_merge, [(Port "output_image", "in_files")]);
      (anat_merge, anat_reorient, [(Port "out_file", "in_file")]);
      (anat_conform_xfm, merge_xfm, [(Port "out_lta", "in1")]);
      (anat_merge, merge_xfm, [(Port "transform_outputs", "in2")]);
      (merge_xfm, concat_xfms, [(Port "out", "in_xfms")]);
      (anat_reorient, outputnode, [(Port "out_file", "anat_ref")]);
      (concat_xfms, outputnode, [(Port "out_xfm", "anat_realign_xfm")])
    ].

(** [wf = LiterateWorkflow(name=name)] for a name the workflow engine
    accepts: a workflow with no description, no node and no edge. *)
Definition LiterateWorkflow (name : string) : Workflow := mkWorkflow name None [] [].

(** A call of the function with a name the workflow engine accepts:
    either an exception reaches the caller, or the workflow is
    returned together with the node objects it refers to. *)
Definition init_anat_template_wf (env : Env) (a : Args) : PyExn + BuildState :=
  match init_anat_template_wf_body env a (mkState [] (LiterateWorkflow (name a))) with
  | inl e => inl e
  | inr (_, s) => inr s
  end.

(** [wf = LiterateWorkflow(name=name)] for any name.  The workflow
    engine checks the name of a workflow when it is created and raises
    [ValueError] for a name it refuses; [accepts] stands for that
    check, which is part of the engine. *)
Definition LiterateWorkflow_call (accepts : string → bool) (name : string)
    : PyExn + Workflow :=
  if accepts name then inr (LiterateWorkflow name)
  else inl (Exception "ValueError").

(** A call of the function for any name: the first statement creates
    the workflow and may raise, the other statements follow.  The
    names of the nodes are the literals written in the function. *)
Definition init_anat_template_wf_call (accepts : string → bool)
    (env : Env) (a : Args) : PyExn + BuildState :=
  match LiterateWorkflow_call accepts (name a) with
  | inl e => inl e
  | inr w =>
      match init_anat_template_wf_body env a (mkState [] w) with
      | inl e => inl e
      | inr (_, s) => inr s
      end
  end.

(** The object behind a node of the returned graph. *)
Definition graph_node (s : BuildState) (ref : string) : option Node :=
  if bool_decide (ref ∈ wf_nodes (wf s)) then assoc_get ref (store s) else None.

(** ** Queries on a built graph *)

(** The node objects of the graph, in the order they joined it. *)
Definition graph_nodes (s : BuildState) : list Node :=
  omap (λ ref, assoc_get ref (store s)) (wf_nodes (wf s)).

(** The edges that end in port [port] of node [ref]. *)
Definition edges_into_port (s : BuildState) (ref port : string) : list Edge :=
  List.filter (λ e, String.eqb (dst e) ref && String.eqb (dst_in e) port)
              (wf_edges (wf s)).

(** The edges that end in node [ref], in the order they were connected. *)
Definition edges_into (s : BuildState) (ref : string) : list Edge :=
  List.filter (λ e, String.eqb (dst e) ref) (wf_edges (wf s)).

(** The ports an interface declares, where this module fixes them: an
    [IdentityInterface] has exactly its [fields], as inputs and as
    outputs.  The ports of the other classes are declared in the
    libraries that define them. *)
Definition declared_ports (i : InterfaceClass) : option (list string) :=
  match i with
  | IdentityInterface fields => Some fields
  | _ => None
  end.

Definition port_declared (n : Node) (p : string) : bool :=
  match declared_ports (interface n) with
  | Some ports => bool_decide (p ∈ ports)
  | None => true
  end.

(** Both ends of the edge are nodes of the graph and name ports the
    nodes declare. *)
Definition edge_ports_declared (s : BuildState) (e : Edge) : bool :=
  match graph_node s (src e), graph_node s (dst e) with
  | Some n, Some m => port_declared n (source_port (src_out e)) && port_declared m (dst_in e)
  | _, _ => false
  end.

(** The steps the single-image branch leaves out. *)
Definition is_template_step (i : InterfaceClass) : bool :=
  match i with
  | StructuralReference | N4BiasFieldCorrection | Reorient => true
  | _ => false
  end.

(** What two graphs are compared on: the node objects with their
    parameters, and the edges. *)
Definition structure (r : PyExn + BuildState) : option (list Node * list Edge) :=
  match r with
  | inr s => Some (graph_nodes s, wf_edges (wf s))
  | inl _ => None
  end.

(** The graph of a call written out as data: the node objects in the
    order they join the graph, and the edges in the order they are
    connected.  [locate] is the locator of packaged data files. *)
Definition nodes_of_arguments (locate : string → string → string) (a : Args)
    : list Node :=
  [mkNode "inputnode" (IdentityInterface ["anat_files"]) [] None None None false;
   mkNode "anat_ref_dimensions" TemplateDimensions [] None None None false;
   mkNode "anat_conform" Conform [] (Some ["in_file"]) None None false]
  ++ (if num_files a =? 1 then
        [mkNode "outputnode"
           (IdentityInterface ["out_file"; "valid_list"; "realign_xfms"; "out_report"])
           [("anat_realign_xfm",
             VList [VStr (locate "smriprep" "data/itkIdentityTransform.txt")])]
           None None None false;
         mkNode "get1st" Select [("index", VList [VInt 0])] None None None false]
      else
        [mkNode "outputnode"
           (IdentityInterface ["out_file"; "valid_list"; "realign_xfms"; "out_report"])
           [] None None None false;
         mkNode "anat_conform_xfm" PatchedLTAConvert
           [("in_lta", VStr "identity.nofile"); ("out_lta", VBool true)]
           (Some ["source_file"; "target_file"]) None None false;
         mkNode "clip_preinu" IntensityClip [("p_min", VInt 50)]
           (Some ["in_file"]) None None false;
         mkNode "anat_merge" StructuralReference
           [("auto_detect_sensitivity", VBool true);
            ("initial_timepoint", VInt 1);
            ("intensity_scaling", VBool true);
            ("subsample_threshold", VInt 200);
            ("fixed_timepoint", VBool (negb (longitudinal a)));
            ("no_iteration", VBool (negb (longitudinal a)));
            ("transform_outputs", VBool true)]
           None (Some (2 * num_files a - 1)) None false;
         mkNode "n4_correct" N4BiasFieldCorrection
           [("dimension", VInt 3);
            ("save_bias", VBool false);
            ("copy_header", VBool true);
            ("n_iterations",
               VList (py_list_repeat (VInt 50) (5 - 2 * py_int_of_bool (sloppy a))));
            ("convergence_threshold", VFloat 1 (-7));
            ("shrink_factor", VInt 4);
            ("bspline_fitting_distance", VInt (bspline_fitting_distance a))]
           (Some ["input_image"]) None (Some 1) false;
         mkNode "anat_reorient" Reorient [] None None None false;
         mkNode "merge_xfm" (Merge 2) [] (Some ["in1"; "in2"]) None None true;
         mkNode "concat_xfms" ConcatenateXFMs [("inverse", VBool true)]
           (Some ["in_xfms"]) None None true])%list.

Definition edges_of_arguments (a : Args) : list Edge :=
  [mkEdge "inputnode" (Port "anat_files") "anat_ref_dimensions" "t1w_list";
   mkEdge "anat_ref_dimensions" (Port "t1w_valid_list") "anat_conform" "in_file";
   mkEdge "anat_ref_dimensions" (Port "target_zooms") "anat_conform" "target_zooms";
   mkEdge "anat_ref_dimensions" (Port "target_shape") "anat_conform" "target_shape";
   mkEdge "anat_ref_dimensions" (Port "out_report") "outputnode" "out_report";
   mkEdge "anat_ref_dimensions" (Port "t1w_valid_list") "outputnode" "anat_valid_list"]
  ++ (if num_files a =? 1 then
        [mkEdge "anat_conform" (Port "out_file") "get1st" "inlist";
         mkEdge "get1st" (Port "out") "outputnode" "anat_ref"]
      else
        [mkEdge "anat_ref_dimensions" (Port "t1w_valid_list")
                "anat_conform_xfm" "source_file";
         mkEdge "anat_conform" (Port "out_file") "anat_conform_xfm" "target_file";
         mkEdge "anat_conform" (Port "out_file") "clip_preinu" "in_file";
         mkEdge "anat_conform"
                (PortFn "out_file" Fn_set_threads [VInt (omp_nthreads a)])
                "anat_merge" "num_threads";
         mkEdge "anat_conform" (PortFn "out_file" Fn_add_suffix [VStr "_template"])
                "anat_merge" "out_file";
         mkEdge "clip_preinu" (Port "out_file") "n4_correct" "input_image";
         mkEdge "n4_correct" (Port "output_image") "anat_merge" "in_files";
         mkEdge "anat_merge" (Port "out_file") "anat_reorient" "in_file";
         mkEdge "anat_conform_xfm" (Port "out_lta") "merge_xfm" "in1";
         mkEdge "anat_merge" (Port "transform_outputs") "merge_xfm" "in2";
         mkEdge "merge_xfm" (Port "out") "concat_xfms" "in_xfms";
         mkEdge "anat_reorient" (Port "out_file") "outputnode" "anat_ref";
         mkEdge "concat_xfms" (Port "out_xfm") "outputnode" "anat_realign_xfm"])%list.


(** The description of the returned workflow, if there is one. *)
Definition description (r : PyExn + BuildState) : option string :=
  match r with
  | inr s => wf_desc (wf s)
  | inl _ => None
  end.

(** ** Running nodes of a built graph

    The interfaces are external programs.  [run_interface] stands for
    running one of them on a table of inputs: it gives the table of
    outputs, or [None] when the step fails.  [add_suffix] stands for
    [niworkflows.utils.misc.add_suffix]. *)

(** The result of a node: one table of outputs, or for a [MapNode] one
    table per item, in item order. *)
Inductive NodeResult : Type :=
| Single (outs : list (string * PyVal))
| PerItem (items : list (list (string * PyVal))).

(** The value on an output port; for a [MapNode], the list of the
    items' values. *)
Definition result_port (r : NodeResult) (p : string) : option PyVal :=
  match r with
  | Single outs => assoc_get p outs
  | PerItem items => VList <$> mapM (assoc_get p) items
  end.

Definition outs_port (outs : list (string * NodeResult)) (ref p : string)
    : option PyVal :=
  r ← assoc_get ref outs; result_port r p.

(** The items of a [MapNode]: the [i]-th item takes the [i]-th element
    of every iterated list.  [n] is the number of items left; lists of
    different lengths are an error. *)
Fixpoint map_items (n : nat) (cols : list (list PyVal)) : option (list (list PyVal)) :=
  match n with
  | O => if forallb (λ col, bool_decide (col = [])) cols then Some [] else None
  | S n' =>
      item ← mapM head cols;
      rest ← map_items n' (tail <$> cols);
      Some (item :: rest)
  end.

(** The value of an iterated field as a list: a list is taken as it
    is, any other value as the list of that one value. *)
Definition as_list (v : PyVal) : list PyVal :=
  match v with VList l => l | _ => [v] end.

Definition set_inputs (ins : list (string * PyVal)) (new : list (string * PyVal))
    : list (string * PyVal) :=
  foldl (λ acc kv, assoc_set kv.1 kv.2 acc) ins new.

Section Execution.

Variable run_interface :
  InterfaceClass → list (string * PyVal) → option (list (string * PyVal)).
Variable add_suffix : PyVal → list PyVal → option PyVal.

(** The value an edge delivers, given the value on its source port:
    the value itself, or the connection function applied to it and
    to the extra arguments. *)
Definition eval_source (s : Source) (v : PyVal) : option PyVal :=
  match s with
  | Port _ => Some v
  | PortFn _ Fn_set_threads [VInt maximum] => VInt <$> _set_threads v maximum
  | PortFn _ Fn_set_threads _ => None
  | PortFn _ Fn_add_suffix args => add_suffix v args
  end.

(** The inputs a node receives over its incoming edges. *)
Definition connected_inputs (s : BuildState) (outs : list (string * NodeResult))
    (ref : string) : option (list (string * PyVal)) :=
  mapM (λ e, v ← outs_port outs (src e) (source_port (src_out e));
             v' ← eval_source (src_out e) v;
             Some (dst_in e, v'))
       (edges_into s ref).

(** Run a node on its inputs.  A [pe.Node] runs its interface once.  A
    [pe.MapNode] takes a list on every field of [iterfield] and runs
    its interface once per item, with the item's elements on these
    fields and the other inputs unchanged; the results keep the order
    of the items.  With lists of no element the run here has no item
    and an empty result, where the workflow engine refuses to run the
    node; on lists of at least one element the two agree. *)
Definition run_node_on (n : Node) (ins : list (string * PyVal)) : option NodeResult :=
  match iterfield n with
  | None => Single <$> run_interface (interface n) ins
  | Some fields =>
      cols ← mapM (λ f, as_list <$> assoc_get f ins) fields;
      items ← map_items (length (default [] (head cols))) cols;
      PerItem <$> mapM (λ item, run_interface (interface n)
                                  (set_inputs ins (zip fields item))) items
  end.

(** Run node [ref]: its constructor inputs, overridden by what
    arrives over the edges. *)
Definition run_node (s : BuildState) (outs : list (string * NodeResult))
    (ref : string) : option (list (string * NodeResult)) :=
  n ← graph_node s ref;
  ins ← connected_inputs s outs ref;
  r ← run_node_on n (set_inputs (inputs n) ins);
  Some (assoc_set ref r outs).

(** Run the nodes of [order] one after the other. *)
Definition run_nodes (s : BuildState) (order : list string)
    (outs : list (string * NodeResult)) : option (list (string * NodeResult)) :=
  foldl (λ acc ref, acc ≫= λ o, run_node s o ref) (Some outs) order.

End Execution.


(** ** Sample calls *)

Definition sample_env : Env :=
  mkEnv (Some "7.3.2") (λ pkg path, "/opt/" +:+ pkg +:+ "/" +:+ path).

(** The call of the docstring: one image, one thread. *)
Definition docstring_call : Args := default_args "T1w" 1 1.

(** The scenario with three images and four threads. *)
Definition three_images_call : Args := default_args "T1w" 3 4.

(** A call with no image and no thread. *)
Definition zero_call : Args := default_args "T1w" 0 0.

(** A name check to run examples with: a name is accepted when it is
    not empty and made of ASCII letters, digits, underscores and
    hyphens. *)
Definition sample_accepts (name : string) : bool :=
  negb (String.eqb name "")
  && forallb (λ c, let n := N_of_ascii c in
                   ((N.leb 48 n && N.leb n 57) || (N.leb 65 n && N.leb n 90)
                    || (N.leb 97 n && N.leb n 122) || N.eqb n 95 || N.eqb n 45)%bool)
             (String.list_ascii_of_string name).








(** A stand-in for the external steps of the template branch, used to
    run examples: each names its result after the files it is given. *)
Definition sample_template_steps (i : InterfaceClass) (ins : list (string * PyVal))
    : option (list (string * PyVal)) :=
  match i with
  | IntensityClip =>
      match assoc_get "in_file" ins with
      | Some (VStr f) => Some [("out_file", VStr ("clip_" +:+ f))]
      | _ => None
      end
  | N4BiasFieldCorrection =>
      match assoc_get "input_image" ins with
      | Some (VStr f) => Some [("output_image", VStr ("n4_" +:+ f))]
      | _ => None
      end
  | PatchedLTAConvert =>
      match assoc_get "source_file" ins, assoc_get "target_file" ins with
      | Some (VStr f), Some (VStr g) => Some [("out_lta", VStr (f +:+ "_to_" +:+ g))]
      | _, _ => None
      end
  | _ => None
  end.

(** Results of the dimension check, of the conform step and of the
    bias correction for two images. *)
Definition sample_conformed : list (string * NodeResult) :=
  [("anat_ref_dimensions",
    Single [("t1w_valid_list", VList [VStr "run1.nii"; VStr "run2.nii"])]);
   ("anat_conform",
    PerItem [[("out_file", VStr "conf1.nii")]; [("out_file", VStr "conf2.nii")]]);
   ("n4_correct",
    PerItem [[("output_image", VStr "n4_clip_conf1.nii")];
             [("output_image", VStr "n4_clip_conf2.nii")]])].

(** ** Shape of a graph *)

(** [path edges a b]: [b] is reached from [a] by following edges from
    source to destination. *)
Inductive path (edges : list Edge) (a : string) : string → Prop :=
| path_here : path edges a a
| path_edge (e : Edge) : path edges a (src e) → e ∈ edges → path edges a (dst e).

(** A cycle: an edge whose source is reached from its destination. *)
Definition acyclic (edges : list Edge) : Prop :=
  ∀ e, e ∈ edges → ¬ path edges (dst e) (src e).

(** The place of a name in a list of names (the length of the list
    when it is absent). *)
Fixpoint position (x : string) (order : list string) : nat :=
  match order with
  | [] => O
  | y :: rest => if String.eqb y x then O else S (position x rest)
  end.

(** The edge goes from an earlier node of [order] to a later one. *)
Definition goes_forward (order : list string) (e : Edge) : bool :=
  Nat.ltb (position (src e) order) (position (dst e) order).

(** The order in which the nodes of either branch can run. *)
Definition run_order : list string :=
  ["inputnode"; "anat_ref_dimensions"; "anat_conform"; "get1st";
   "anat_conform_xfm"; "clip_preinu"; "n4_correct"; "anat_merge";
   "anat_reorient"; "merge_xfm"; "concat_xfms"; "outputnode"].

Definition successors (edges : list Edge) (x : string) : list string :=
  dst <$> List.filter (λ e, String.eqb (src e) x) edges.

(** The nodes reached from [seen] in at most [n] steps. *)
Fixpoint reached (n : nat) (edges : list Edge) (seen : list string) : list string :=
  match n with
  | O => seen
  | S n' => reached n' edges (list_union seen (seen ≫= successors edges))
  end.

(** The input ports that edges end in, one entry per edge. *)
Definition fed_ports (s : BuildState) : list (string * string) :=
  (λ e, (dst e, dst_in e)) <$> wf_edges (wf s).

(** The inputs a node object holds itself: constructor keyword
    arguments and assigned attributes. *)
Definition own_inputs (n : Node) : list string := fst <$> inputs n.

(** The edge ends in an input its node already holds. *)
Definition overrides_own_input (s : BuildState) (e : Edge) : bool :=
  match graph_node s (dst e) with
  | Some n => bool_decide (dst_in e ∈ own_inputs n)
  | None => false
  end.

(** Every iterated field of a [MapNode] is the end of exactly one edge. *)
Definition iterfields_fed (s : BuildState) (n : Node) : bool :=
  match iterfield n with
  | None => true
  | Some fields =>
      forallb (λ f, Nat.eqb (length (edges_into_port s (node_name n) f)) 1) fields
  end.

(** The names of the nodes of the graph that satisfy [p]. *)
Definition nodes_where (p : Node → bool) (s : BuildState) : list string :=
  node_name <$> List.filter p (graph_nodes s).

(** An edge without the cap of its thread-budget function. *)
Definition without_cap (e : Edge) : Edge :=
  match src_out e with
  | PortFn p Fn_set_threads _ => mkEdge (src e) (PortFn p Fn_set_threads []) (dst e) (dst_in e)
  | _ => e
  end.

(** The node objects other than the bias-correction and the
    registration/averaging node. *)
Definition nodes_without_options (s : BuildState) : list Node :=
  List.filter (λ n, negb (String.eqb (node_name n) "n4_correct"
                          || String.eqb (node_name n) "anat_merge"))
              (graph_nodes s).

(** * Properties *)

(** ** Tactics to run the builder

    The builder branches on [1 < num_files] and on [num_files == 1]
    only; once these tests are decided every statement is evaluated. *)

Ltac builder_branches a :=
  destruct a as [c nf omp lg bs sl nm];
  cbn [contrast num_files omp_nthreads longitudinal bspline_fitting_distance
       sloppy name] in *;
  unfold init_anat_template_wf, init_anat_template_wf_body;
  cbn [num_files];
  destruct (Z.ltb_spec 1 nf); destruct (Z.eqb_spec nf 1); try lia.

(** Give the final state of the run as the witness. *)
Ltac run_builder :=
  lazymatch goal with
  | |- ∃ s, ?r = inr s ∧ _ =>
      let v := eval vm_compute in r in
      lazymatch v with
      | inr ?x => exists x; split; [vm_compute; reflexivity|]
      end
  end.

(** Give the value of a query as the witness. *)
Ltac found :=
  lazymatch goal with
  | |- ∃ n, ?f = Some n ∧ _ =>
      let v := eval vm_compute in f in
      lazymatch v with
      | Some ?x => exists x; split; [vm_compute; reflexivity|]
      end
  | |- ∃ n, ?f = [n] ∧ _ =>
      let v := eval vm_compute in f in
      lazymatch v with
      | [?x] => exists x; split; [vm_compute; reflexivity|]
      end
  end.

(** ** The thread budget *)

Lemma py_min_spec (a b : Z) : py_min a b = Z.min a b.
Proof. unfold py_min. destruct (Z.ltb_spec b a); lia. Qed.

Lemma set_threads_list (in_list : list PyVal) (maximum : Z) :
  _set_threads (VList in_list) maximum
  = Some (Z.min (Z.of_nat (length in_list)) maximum).
Proof. unfold _set_threads. cbn. by rewrite py_min_spec. Qed.

Example set_threads_3_of_4 :
  _set_threads (VList [VStr "a"; VStr "b"; VStr "c"]) 4 = Some 3.
Proof. reflexivity. Qed.

Example set_threads_8_capped_at_4 :
  _set_threads (VList (replicate 8 (VStr "a"))) 4 = Some 4.
Proof. reflexivity. Qed.

(** C4: for a list of any length and a cap of at least 1,
    [_set_threads] is the minimum of the length and the cap; with more
    than one file, the only edge into [num_threads] of the
    registration/averaging node [anat_merge] takes the conformed
    images from [anat_conform.out_file] and delivers that minimum for
    the cap [omp_nthreads]. *)
Theorem C4_thread_budget_is_min (env : Env) (a : Args) (imgs : list PyVal)
    (add_suffix : PyVal → list PyVal → option PyVal) :
  1 ≤ omp_nthreads a →
  1 < num_files a →
  _set_threads (VList imgs) (omp_nthreads a)
    = Some (Z.min (Z.of_nat (length imgs)) (omp_nthreads a))
  ∧ ∃ s, init_anat_template_wf env a = inr s
    ∧ ∃ e, edges_into_port s "anat_merge" "num_threads" = [e]
      ∧ src e = "anat_conform"
      ∧ source_port (src_out e) = "out_file"
      ∧ eval_source add_suffix (src_out e) (VList imgs)
        = Some (VInt (Z.min (Z.of_nat (length imgs)) (omp_nthreads a))).
Proof.
  intros _ Hfiles. split; [apply set_threads_list|].
  builder_branches a. run_builder. found.
  repeat split. cbn [eval_source src_out]. by rewrite set_threads_list.
Qed.

Lemma C4_witness :
  1 ≤ omp_nthreads three_images_call ∧ 1 < num_files three_images_call
  ∧ _set_threads (VList [VStr "a"; VStr "b"; VStr "c"]) 4 = Some 3
  ∧ ∃ s, init_anat_template_wf sample_env three_images_call = inr s
    ∧ ∃ e, edges_into_port s "anat_merge" "num_threads" = [e]
      ∧ src e = "anat_conform"
      ∧ source_port (src_out e) = "out_file"
      ∧ eval_source (λ _ _, None) (src_out e) (VList [VStr "a"; VStr "b"; VStr "c"])
        = Some (VInt 3).
Proof.
  split; [discriminate|]. split; [reflexivity|].
  exact (C4_thread_budget_is_min sample_env three_images_call
           [VStr "a"; VStr "b"; VStr "c"] (λ _ _, None)
           ltac:(discriminate) eq_refl).
Defined.

(** C5 as stated fails: with a cap of 4 the budget derived from an
    empty list is 0, which is below 1. *)
Lemma C5_counterexample :
  ¬ (∀ m : Z, 1 ≤ m → ∃ t, _set_threads (VList []) m = Some t ∧ 1 ≤ t).
Proof.
  intros H. destruct (H 4) as (t & Ht & Hle); [lia|].
  vm_compute in Ht. injection Ht as <-. lia.
Qed.

(** C5, amended: for every cap of at least 1, the budget derived from
    an empty list is 0; no floor is applied. *)
Theorem C5_empty_list_budget_is_zero (m : Z) :
  1 ≤ m → _set_threads (VList []) m = Some 0.
Proof. intros Hm. rewrite set_threads_list. cbn. f_equal. lia. Qed.

Lemma C5_witness : 1 ≤ 4 ∧ _set_threads (VList []) 4 = Some 0.
Proof.
  split; [discriminate|].
  exact (C5_empty_list_budget_is_zero 4 ltac:(discriminate)).
Defined.

(** ** The multi-image branch *)

(** C6: with more than one file, whatever the other arguments, the
    bias-field-correction node [n4_correct] gets an iteration schedule
    of length 5 - 2 * sloppy: 5 when [sloppy] is false, 3 when it is
    true. *)
Theorem C6_iteration_schedule_length (env : Env) (a : Args) :
  1 < num_files a →
  ∃ s, init_anat_template_wf env a = inr s
  ∧ ∃ n, graph_node s "n4_correct" = Some n
  ∧ interface n = N4BiasFieldCorrection
  ∧ ∃ schedule, assoc_get "n_iterations" (inputs n) = Some (VList schedule)
  ∧ Z.of_nat (length schedule) = 5 - 2 * py_int_of_bool (sloppy a)
  ∧ (sloppy a = false → length schedule = 5%nat)
  ∧ (sloppy a = true → length schedule = 3%nat).
Proof.
  intros Hfiles. builder_branches a.
  destruct sl; run_builder; found; (split; [reflexivity|]);
    eexists; (split; [reflexivity|]); repeat split; done.
Qed.

Lemma C6_witness :
  1 < num_files three_images_call
  ∧ ∃ s, init_anat_template_wf sample_env three_images_call = inr s
  ∧ ∃ n, graph_node s "n4_correct" = Some n
  ∧ interface n = N4BiasFieldCorrection
  ∧ ∃ schedule, assoc_get "n_iterations" (inputs n) = Some (VList schedule)
  ∧ Z.of_nat (length schedule) = 5 - 2 * py_int_of_bool (sloppy three_images_call)
  ∧ (sloppy three_images_call = false → length schedule = 5%nat)
  ∧ (sloppy three_images_call = true → length schedule = 3%nat).
Proof.
  split; [reflexivity|].
  exact (C6_iteration_schedule_length sample_env three_images_call eq_refl).
Defined.

(** C7: with more than one file, the registration/averaging node
    [anat_merge] is configured with [initial_timepoint = 1] and
    [transform_outputs = True], and with [fixed_timepoint] and
    [no_iteration] both equal to [not longitudinal]: the reference is
    held fixed and not re-estimated when [longitudinal] is false, and
    neither flag is set when it is true. *)
Theorem C7_registration_configuration (env : Env) (a : Args) :
  1 < num_files a →
  ∃ s, init_anat_template_wf env a = inr s
  ∧ ∃ n, graph_node s "anat_merge" = Some n
  ∧ interface n = StructuralReference
  ∧ assoc_get "initial_timepoint" (inputs n) = Some (VInt 1)
  ∧ assoc_get "transform_outputs" (inputs n) = Some (VBool true)
  ∧ assoc_get "fixed_timepoint" (inputs n) = Some (VBool (negb (longitudinal a)))
  ∧ assoc_get "no_iteration" (inputs n) = Some (VBool (negb (longitudinal a)))
  ∧ (longitudinal a = false →
       assoc_get "fixed_timepoint" (inputs n) = Some (VBool true)
       ∧ assoc_get "no_iteration" (inputs n) = Some (VBool true))
  ∧ (longitudinal a = true →
       assoc_get "fixed_timepoint" (inputs n) = Some (VBool false)
       ∧ assoc_get "no_iteration" (inputs n) = Some (VBool false)).
Proof.
  intros Hfiles. builder_branches a.
  destruct lg; run_builder; found; repeat split; done.
Qed.

Lemma C7_witness :
  1 < num_files three_images_call
  ∧ ∃ s, init_anat_template_wf sample_env three_images_call = inr s
  ∧ ∃ n, graph_node s "anat_merge" = Some n
  ∧ interface n = StructuralReference
  ∧ assoc_get "initial_timepoint" (inputs n) = Some (VInt 1)
  ∧ assoc_get "transform_outputs" (inputs n) = Some (VBool true)
  ∧ assoc_get "fixed_timepoint" (inputs n)
    = Some (VBool (negb (longitudinal three_images_call)))
  ∧ assoc_get "no_iteration" (inputs n)
    = Some (VBool (negb (longitudinal three_images_call)))
  ∧ (longitudinal three_images_call = false →
       assoc_get "fixed_timepoint" (inputs n) = Some (VBool true)
       ∧ assoc_get "no_iteration" (inputs n) = Some (VBool true))
  ∧ (longitudinal three_images_call = true →
       assoc_get "fixed_timepoint" (inputs n) = Some (VBool false)
       ∧ assoc_get "no_iteration" (inputs n) = Some (VBool false)).
Proof.
  split; [reflexivity|].
  exact (C7_registration_configuration sample_env three_images_call eq_refl).
Defined.

(** C10: with more than one file, the registration/averaging node
    [anat_merge] is created with a memory hint of
    2 * num_files - 1 gigabytes. *)
Theorem C10_registration_memory_hint (env : Env) (a : Args) :
  1 < num_files a →
  ∃ s, init_anat_template_wf env a = inr s
  ∧ ∃ n, graph_node s "anat_merge" = Some n
  ∧ interface n = StructuralReference
  ∧ mem_gb n = Some (2 * num_files a - 1).
Proof.
  intros Hfiles. builder_branches a.
  run_builder. found. split; vm_compute; reflexivity.
Qed.

Lemma C10_witness :
  1 < num_files three_images_call
  ∧ ∃ s, init_anat_template_wf sample_env three_images_call = inr s
  ∧ ∃ n, graph_node s "anat_merge" = Some n
  ∧ interface n = StructuralReference
  ∧ mem_gb n = Some (2 * num_files three_images_call - 1).
Proof.
  split; [reflexivity|].
  exact (C10_registration_memory_hint sample_env three_images_call eq_refl).
Defined.

Example memory_hint_three_images :
  ∃ s, init_anat_template_wf sample_env three_images_call = inr s
  ∧ ∃ n, graph_node s "anat_merge" = Some n ∧ mem_gb n = Some 5.
Proof. run_builder. found. reflexivity. Qed.

(** ** The single-image branch *)

(** C3 fails on every call with one file.  The graph has five nodes,
    none of which is a registration/averaging, bias-correction or
    reorientation step.  But the one-element list holding the packaged
    identity transform is assigned to [anat_realign_xfm] of the output
    node, and the image selected by [get1st] (a [Select] of index 0 on
    the output of the conform step) is connected to its [anat_ref]:
    two ports the output node does not declare, so neither value is an
    output of the graph.  The ports the node declares in their place,
    [realign_xfms] and [out_file], hold no value and are the end of no
    edge. *)
Theorem C3_outputs_bound_to_undeclared_ports (env : Env) (a : Args) :
  num_files a = 1 →
  ∃ s, init_anat_template_wf env a = inr s
  ∧ wf_nodes (wf s)
    = ["inputnode"; "anat_ref_dimensions"; "anat_conform"; "outputnode"; "get1st"]
  ∧ interface <$> graph_nodes s
    = [IdentityInterface ["anat_files"]; TemplateDimensions; Conform;
       IdentityInterface ["out_file"; "valid_list"; "realign_xfms"; "out_report"];
       Select]
  ∧ Forall (λ n, is_template_step (interface n) = false) (graph_nodes s)
  ∧ (∃ out, graph_node s "outputnode" = Some out
     ∧ declared_ports (interface out)
       = Some ["out_file"; "valid_list"; "realign_xfms"; "out_report"]
     ∧ inputs out
       = [("anat_realign_xfm",
           VList [VStr (get_file env "smriprep" "data/itkIdentityTransform.txt")])]
     ∧ port_declared out "anat_realign_xfm" = false
     ∧ port_declared out "anat_ref" = false)
  ∧ edges_into_port s "outputnode" "anat_realign_xfm" = []
  ∧ (∃ sel, graph_node s "get1st" = Some sel
     ∧ interface sel = Select
     ∧ iterfield sel = None
     ∧ inputs sel = [("index", VList [VInt 0])])
  ∧ edges_into_port s "outputnode" "anat_ref"
    = [mkEdge "get1st" (Port "out") "outputnode" "anat_ref"]
  ∧ edges_into s "get1st"
    = [mkEdge "anat_conform" (Port "out_file") "get1st" "inlist"]
  ∧ edges_into_port s "outputnode" "realign_xfms" = []
  ∧ edges_into_port s "outputnode" "out_file" = [].
Proof.
  intros Hone. builder_branches a. run_builder.
  split; [vm_compute; reflexivity|].
  split; [vm_compute; reflexivity|].
  split; [vm_compute; repeat constructor|].
  split; [found; repeat split; vm_compute; reflexivity|].
  split; [vm_compute; reflexivity|].
  split; [found; repeat split; vm_compute; reflexivity|].
  repeat (split; [vm_compute; reflexivity|]). vm_compute. reflexivity.
Qed.

Lemma C3_witness :
  num_files docstring_call = 1
  ∧ ∃ s, init_anat_template_wf sample_env docstring_call = inr s
  ∧ wf_nodes (wf s)
    = ["inputnode"; "anat_ref_dimensions"; "anat_conform"; "outputnode"; "get1st"]
  ∧ interface <$> graph_nodes s
    = [IdentityInterface ["anat_files"]; TemplateDimensions; Conform;
       IdentityInterface ["out_file"; "valid_list"; "realign_xfms"; "out_report"];
       Select]
  ∧ Forall (λ n, is_template_step (interface n) = false) (graph_nodes s)
  ∧ (∃ out, graph_node s "outputnode" = Some out
     ∧ declared_ports (interface out)
       = Some ["out_file"; "valid_list"; "realign_xfms"; "out_report"]
     ∧ inputs out
       = [("anat_realign_xfm",
           VList [VStr (get_file sample_env "smriprep" "data/itkIdentityTransform.txt")])]
     ∧ port_declared out "anat_realign_xfm" = false
     ∧ port_declared out "anat_ref" = false)
  ∧ edges_into_port s "outputnode" "anat_realign_xfm" = []
  ∧ (∃ sel, graph_node s "get1st" = Some sel
     ∧ interface sel = Select
     ∧ iterfield sel = None
     ∧ inputs sel = [("index", VList [VInt 0])])
  ∧ edges_into_port s "outputnode" "anat_ref"
    = [mkEdge "get1st" (Port "out") "outputnode" "anat_ref"]
  ∧ edges_into s "get1st"
    = [mkEdge "anat_conform" (Port "out_file") "get1st" "inlist"]
  ∧ edges_into_port s "outputnode" "realign_xfms" = []
  ∧ edges_into_port s "outputnode" "out_file" = [].
Proof.
  split; [reflexivity|].
  exact (C3_outputs_bound_to_undeclared_ports sample_env docstring_call eq_refl).
Defined.

(** ** Ports of the output node *)

(** C1 fails on every call: the valid-image list is connected to the
    port [anat_valid_list] of the output node, which declares only
    [out_file], [valid_list], [realign_xfms] and [out_report].  The
    report is connected to the declared port [out_report]; every other
    edge into the output node ends in a port the node does not
    declare, and every edge elsewhere passes the check. *)
Theorem C1_valid_list_bound_to_undeclared_port (env : Env) (a : Args) :
  ∃ s, init_anat_template_wf env a = inr s
  ∧ (∃ out, graph_node s "outputnode" = Some out
     ∧ declared_ports (interface out)
       = Some ["out_file"; "valid_list"; "realign_xfms"; "out_report"]
     ∧ port_declared out "anat_valid_list" = false)
  ∧ (∃ e, edges_into_port s "outputnode" "anat_valid_list" = [e]
     ∧ src e = "anat_ref_dimensions"
     ∧ src_out e = Port "t1w_valid_list"
     ∧ edge_ports_declared s e = false)
  ∧ (∃ e, edges_into_port s "outputnode" "out_report" = [e]
     ∧ edge_ports_declared s e = true)
  ∧ Forall (λ e, edge_ports_declared s e
                 = negb (String.eqb (dst e) "outputnode"
                         && negb (String.eqb (dst_in e) "out_report")))
           (wf_edges (wf s)).
Proof.
  builder_branches a; run_builder;
    (split; [found; split; vm_compute; reflexivity|]);
    (split; [found; repeat split; vm_compute; reflexivity|]);
    (split; [found; vm_compute; reflexivity|]);
    cbn [wf_edges wf];
    repeat (constructor; [vm_compute; reflexivity|]); constructor.
Qed.

Example docstring_call_has_undeclared_port :
  ∃ s, init_anat_template_wf sample_env docstring_call = inr s
  ∧ forallb (edge_ports_declared s) (wf_edges (wf s)) = false.
Proof. run_builder. vm_compute. reflexivity. Qed.

(** ** Arguments below 1 *)

(** C2 as stated fails: called with [num_files = 0] and
    [omp_nthreads = 0] the builder raises nothing and returns a graph
    of eleven nodes. *)
Lemma C2_counterexample :
  (num_files zero_call < 1 ∧ omp_nthreads zero_call < 1)
  ∧ ¬ (∃ e, init_anat_template_wf sample_env zero_call = inl e)
  ∧ ∃ s, init_anat_template_wf sample_env zero_call = inr s
    ∧ length (wf_nodes (wf s)) = 11%nat.
Proof.
  split; [split; reflexivity|].
  split; [intros [e He]; vm_compute in He; discriminate|].
  run_builder. reflexivity.
Qed.

Lemma call_with_accepted_name (accepts : string → bool) (env : Env) (a : Args) :
  accepts (name a) = true →
  init_anat_template_wf_call accepts env a = init_anat_template_wf env a.
Proof.
  intros Hname.
  unfold init_anat_template_wf_call, LiterateWorkflow_call, init_anat_template_wf.
  by rewrite Hname.
Qed.

Lemma call_with_refused_name (accepts : string → bool) (env : Env) (a : Args) :
  accepts (name a) = false →
  init_anat_template_wf_call accepts env a = inl (Exception "ValueError").
Proof.
  intros Hname. unfold init_anat_template_wf_call, LiterateWorkflow_call.
  by rewrite Hname.
Qed.

Lemma body_raises_nothing (env : Env) (a : Args) :
  ∃ s, init_anat_template_wf env a = inr s.
Proof. builder_branches a; eexists; vm_compute; reflexivity. Qed.

(** A call raises exactly when the engine refuses the name. *)
Lemma call_raises_iff (accepts : string → bool) (env : Env) (a : Args) :
  (∃ e, init_anat_template_wf_call accepts env a = inl e) ↔ accepts (name a) = false.
Proof.
  destruct (accepts (name a)) eqn:Hname.
  - rewrite (call_with_accepted_name _ _ _ Hname).
    destruct (body_raises_nothing env a) as [s ->].
    split; [by intros [e ?] | done].
  - rewrite (call_with_refused_name _ _ _ Hname). split; [done | by eexists].
Qed.

(** C2, amended: the function checks neither [num_files] nor
    [omp_nthreads].  For a call with [num_files < 1] or
    [omp_nthreads < 1]: if the workflow engine refuses the name, the
    call raises the engine's [ValueError]; if it accepts the name, the
    call returns a graph, which for [num_files < 1] is the multi-image
    graph with the memory hint 2 * num_files - 1 on [anat_merge];
    and whether the call raises is the same for every call with the
    same name, whatever its [num_files] and [omp_nthreads]. *)
Theorem C2_no_argument_check (accepts : string → bool) (env : Env) (a : Args) :
  num_files a < 1 ∨ omp_nthreads a < 1 →
  (accepts (name a) = false →
     init_anat_template_wf_call accepts env a = inl (Exception "ValueError"))
  ∧ (accepts (name a) = true →
     ∃ s, init_anat_template_wf_call accepts env a = inr s
     ∧ (num_files a < 1 →
          wf_nodes (wf s)
          = ["inputnode"; "anat_ref_dimensions"; "anat_conform"; "outputnode";
             "anat_conform_xfm"; "clip_preinu"; "anat_merge"; "n4_correct";
             "anat_reorient"; "merge_xfm"; "concat_xfms"]
          ∧ mem_gb <$> graph_node s "anat_merge"
            = Some (Some (2 * num_files a - 1))))
  ∧ (∀ b, name b = name a →
       (∃ e, init_anat_template_wf_call accepts env b = inl e)
       ↔ (∃ e, init_anat_template_wf_call accepts env a = inl e)).
Proof.
  intros _. split; [apply call_with_refused_name|]. split.
  - intros Hname. rewrite (call_with_accepted_name _ _ _ Hname).
    builder_branches a; run_builder; intros; try lia;
      split; vm_compute; reflexivity.
  - intros b Hb. rewrite !call_raises_iff. by rewrite Hb.
Qed.

Lemma C2_witness :
  (num_files zero_call < 1 ∨ omp_nthreads zero_call < 1)
  ∧ (sample_accepts (name zero_call) = false →
     init_anat_template_wf_call sample_accepts sample_env zero_call = inl (Exception "ValueError"))
  ∧ (sample_accepts (name zero_call) = true →
     ∃ s, init_anat_template_wf_call sample_accepts sample_env zero_call = inr s
     ∧ (num_files zero_call < 1 →
          wf_nodes (wf s)
          = ["inputnode"; "anat_ref_dimensions"; "anat_conform"; "outputnode";
             "anat_conform_xfm"; "clip_preinu"; "anat_merge"; "n4_correct";
             "anat_reorient"; "merge_xfm"; "concat_xfms"]
          ∧ mem_gb <$> graph_node s "anat_merge"
            = Some (Some (2 * num_files zero_call - 1))))
  ∧ (∀ b, name b = name zero_call →
       (∃ e, init_anat_template_wf_call sample_accepts sample_env b = inl e)
       ↔ (∃ e, init_anat_template_wf_call sample_accepts sample_env zero_call = inl e)).
Proof.
  split; [left; reflexivity|].
  exact (C2_no_argument_check sample_accepts sample_env zero_call
           (or_introl eq_refl)).
Defined.

Example refused_name_raises :
  sample_accepts "a.b" = false
  ∧ init_anat_template_wf_call sample_accepts sample_env
      (mkArgs "T1w" 0 0 false 200 false "a.b")
    = inl (Exception "ValueError").
Proof. split; vm_compute; reflexivity. Qed.

(** ** Two runs *)

(** C9: two calls with the same arguments and a name the engine
    accepts return structurally identical graphs, whatever FreeSurfer
    version each call finds: both have exactly the node objects, with
    their parameters, of [nodes_of_arguments] and the edges of
    [edges_of_arguments], which are read off the arguments and the
    locator of packaged data alone. *)
Theorem C9_same_arguments_same_structure (accepts : string → bool)
    (fs_ver1 fs_ver2 : option string) (locate : string → string → string)
    (a : Args) :
  accepts (name a) = true →
  structure (init_anat_template_wf_call accepts (mkEnv fs_ver1 locate) a)
  = structure (init_anat_template_wf_call accepts (mkEnv fs_ver2 locate) a)
  ∧ structure (init_anat_template_wf_call accepts (mkEnv fs_ver1 locate) a)
    = Some (nodes_of_arguments locate a, edges_of_arguments a).
Proof.
  intros Hname. rewrite !(call_with_accepted_name _ _ _ Hname).
  assert (Hboth : ∀ fs_ver,
            structure (init_anat_template_wf (mkEnv fs_ver locate) a)
            = Some (nodes_of_arguments locate a, edges_of_arguments a)).
  { intros fs_ver. clear Hname. unfold nodes_of_arguments, edges_of_arguments.
    builder_branches a; vm_compute; reflexivity. }
  by rewrite !Hboth.
Qed.

Lemma C9_witness :
  sample_accepts (name three_images_call) = true
  ∧ structure (init_anat_template_wf_call sample_accepts (mkEnv (Some "6.0.0") (get_file sample_env)) three_images_call)
  = structure (init_anat_template_wf_call sample_accepts (mkEnv (Some "7.3.2") (get_file sample_env)) three_images_call)
  ∧ structure (init_anat_template_wf_call sample_accepts (mkEnv (Some "6.0.0") (get_file sample_env)) three_images_call)
    = Some (nodes_of_arguments (get_file sample_env) three_images_call, edges_of_arguments three_images_call).
Proof.
  split; [reflexivity|].
  exact (C9_same_arguments_same_structure sample_accepts (Some "6.0.0") (Some "7.3.2")
           (get_file sample_env) three_images_call eq_refl).
Defined.

(** The description is written only for more than one file. *)
Example description_three_images :
  description (init_anat_template_wf sample_env three_images_call)
  = Some "An anatomical T1w-reference map was computed after registration of
3 T1w images (after INU-correction) using
`mri_robust_template` [FreeSurfer 7.3.2, @fs_template].
".
Proof. vm_compute. reflexivity. Qed.

Example description_single_image :
  description (init_anat_template_wf sample_env docstring_call) = None.
Proof. vm_compute. reflexivity. Qed.

(** The description is the one part of the result that follows the
    FreeSurfer version. *)
Example description_follows_freesurfer_version :
  description (init_anat_template_wf (mkEnv (Some "6.0.0") (get_file sample_env))
                                     three_images_call)
  ≠ description (init_anat_template_wf sample_env three_images_call).
Proof. vm_compute. discriminate. Qed.

(** ** The realignment transforms *)





Section Realignment.

Variable run_interface :
  InterfaceClass → list (string * PyVal) → option (list (string * PyVal)).
Variable add_suffix : PyVal → list PyVal → option PyVal.

(** [Merge(2)] on two files lists them in order. *)
Hypothesis Merge_files : ∀ f g : string,
  run_interface (Merge 2) [("in1", VStr f); ("in2", VStr g)]
  = Some [("out", VList [VStr f; VStr g])].





(** [ConcatenateXFMs] with [inverse] set gives the combined transform
    [chain xs] of its list on [out_xfm] and the inverse of that
    transform on [out_inv]. *)
Variable chain : list PyVal → PyVal.
Variable inverse_of : PyVal → PyVal.
Hypothesis Concatenate_ports : ∀ xs,
  run_interface ConcatenateXFMs [("inverse", VBool true); ("in_xfms", VList xs)]
  = Some [("out_xfm", chain xs); ("out_inv", inverse_of (chain xs))].



End Realignment.





(** ** Shape of the built graph *)

Lemma path_positions (order : list string) (edges : list Edge) (a b : string) :
  Forall (λ e, goes_forward order e = true) edges →
  path edges a b → (position a order ≤ position b order)%nat.
Proof.
  intros Hfwd Hpath. induction Hpath as [|e Hp IH He]; [lia|].
  rewrite Forall_forall in Hfwd. specialize (Hfwd e He).
  unfold goes_forward in Hfwd. apply Nat.ltb_lt in Hfwd. lia.
Qed.

Lemma forward_edges_acyclic (order : list string) (edges : list Edge) :
  Forall (λ e, goes_forward order e = true) edges → acyclic edges.
Proof.
  intros Hfwd e He Hpath.
  pose proof (path_positions order edges _ _ Hfwd Hpath) as Hle.
  rewrite Forall_forall in Hfwd. specialize (Hfwd e He).
  unfold goes_forward in Hfwd. apply Nat.ltb_lt in Hfwd. lia.
Qed.

Lemma successors_path (edges : list Edge) (a x y : string) :
  path edges a x → y ∈ successors edges x → path edges a y.
Proof.
  intros Hx Hy. unfold successors in Hy.
  apply list_elem_of_fmap in Hy as (e & -> & He).
  apply list_elem_of_In, filter_In in He as [He Hsrc].
  apply String.eqb_eq in Hsrc. subst x.
  apply path_edge; [done|]. by apply list_elem_of_In.
Qed.

Lemma reached_path (n : nat) (edges : list Edge) (a : string) (seen : list string) :
  Forall (path edges a) seen → Forall (path edges a) (reached n edges seen).
Proof.
  revert seen. induction n as [|n IH]; intros seen Hseen; [done|].
  cbn. apply IH. rewrite Forall_forall in Hseen. apply Forall_forall.
  intros y Hy. apply list_elem_of_union in Hy as [Hy|Hy]; [by apply Hseen|].
  apply list_elem_of_bind in Hy as (x & Hy & Hx).
  eapply successors_path; [by apply Hseen|done].
Qed.

(** Decide a closed statement by evaluating its decision procedure. *)
Ltac by_evaluation := apply (bool_decide_unpack _); vm_compute; exact I.

(** Prove a property of every element of a list that is written out. *)
Ltac each_element :=
  cbn [wf_edges wf_nodes wf store];
  repeat (constructor; [vm_compute; reflexivity|]); constructor.

(** X1: whatever the arguments, the graph starts with the same four
    nodes and the same six edges: the input list goes to the dimension
    check, its valid list and target geometry go to the conform step,
    and its report and valid list go to the output node. *)
Theorem common_subgraph_first (env : Env) (a : Args) :
  ∃ s, init_anat_template_wf env a = inr s
  ∧ take 4 (wf_nodes (wf s))
    = ["inputnode"; "anat_ref_dimensions"; "anat_conform"; "outputnode"]
  ∧ take 6 (wf_edges (wf s))
    = [mkEdge "inputnode" (Port "anat_files") "anat_ref_dimensions" "t1w_list";
       mkEdge "anat_ref_dimensions" (Port "t1w_valid_list") "anat_conform" "in_file";
       mkEdge "anat_ref_dimensions" (Port "target_zooms") "anat_conform" "target_zooms";
       mkEdge "anat_ref_dimensions" (Port "target_shape") "anat_conform" "target_shape";
       mkEdge "anat_ref_dimensions" (Port "out_report") "outputnode" "out_report";
       mkEdge "anat_ref_dimensions" (Port "t1w_valid_list") "outputnode" "anat_valid_list"]
  ∧ (∃ n, graph_node s "anat_conform" = Some n
     ∧ interface n = Conform ∧ iterfield n = Some ["in_file"] ∧ inputs n = []).
Proof.
  builder_branches a; run_builder;
    (split; [vm_compute; reflexivity|]); (split; [vm_compute; reflexivity|]);
    found; repeat split; vm_compute; reflexivity.
Qed.

(** X2: the built graph has no cycle: every edge goes forward in
    [run_order]. *)
Theorem built_graph_acyclic (env : Env) (a : Args) :
  ∃ s, init_anat_template_wf env a = inr s
  ∧ Forall (λ e, goes_forward run_order e = true) (wf_edges (wf s))
  ∧ acyclic (wf_edges (wf s)).
Proof.
  builder_branches a; run_builder;
    match goal with
    | |- Forall ?P ?l ∧ _ =>
        assert (Hall : Forall P l) by each_element;
        split; [exact Hall | exact (forward_edges_acyclic _ _ Hall)]
    end.
Qed.

(** X3: every node of the built graph is reached from [inputnode]. *)
Theorem built_graph_reached_from_inputnode (env : Env) (a : Args) :
  ∃ s, init_anat_template_wf env a = inr s
  ∧ Forall (path (wf_edges (wf s)) "inputnode") (wf_nodes (wf s)).
Proof.
  builder_branches a; run_builder;
    match goal with
    | |- Forall (path ?E _) ?l =>
        assert (Hin : Forall (λ x, x ∈ reached 8 E ["inputnode"]) l)
          by by_evaluation;
        pose proof (reached_path 8 E "inputnode" ["inputnode"]
                      ltac:(repeat constructor)) as Hreach;
        rewrite Forall_forall in Hin, Hreach; apply Forall_forall;
        intros x Hx; exact (Hreach x (Hin x Hx))
    end.
Qed.

(** X4: no input port is the end of two edges, and no edge ends in an
    input that its node already holds from its constructor or from an
    assignment. *)
Theorem input_ports_fed_once (env : Env) (a : Args) :
  ∃ s, init_anat_template_wf env a = inr s
  ∧ NoDup (fed_ports s)
  ∧ Forall (λ e, overrides_own_input s e = false) (wf_edges (wf s)).
Proof.
  builder_branches a; run_builder; (split; [by_evaluation | each_element]).
Qed.

(** X5: every iterated field of every [MapNode] of the graph is the
    end of exactly one edge. *)
Theorem map_nodes_have_their_lists (env : Env) (a : Args) :
  ∃ s, init_anat_template_wf env a = inr s
  ∧ Forall (λ n, iterfields_fed s n = true) (graph_nodes s)
  ∧ nodes_where (λ n, bool_decide (is_Some (iterfield n))) s
    = if num_files a =? 1 then ["anat_conform"]
      else ["anat_conform"; "anat_conform_xfm"; "clip_preinu"; "n4_correct";
            "merge_xfm"; "concat_xfms"].
Proof.
  builder_branches a; run_builder;
    (split; [|vm_compute; reflexivity]).
  all: match goal with
       | |- Forall _ (graph_nodes ?S) =>
           let v := eval vm_compute in (graph_nodes S) in
           change (graph_nodes S) with v;
           repeat (constructor; [vm_compute; reflexivity|]); constructor
       end.
Qed.

(** X6: the graph has no node twice, every node object the function
    creates is a node of the graph and is stored under its own name,
    and both ends of every edge are nodes of the graph. *)
Theorem every_created_node_is_wired (env : Env) (a : Args) :
  ∃ s, init_anat_template_wf env a = inr s
  ∧ NoDup (wf_nodes (wf s))
  ∧ (store s).*1 ≡ₚ wf_nodes (wf s)
  ∧ Forall (λ kv, node_name kv.2 = kv.1) (store s)
  ∧ Forall (λ e, src e ∈ wf_nodes (wf s) ∧ dst e ∈ wf_nodes (wf s))
           (wf_edges (wf s)).
Proof.
  builder_branches a; run_builder; repeat (split; [by_evaluation|]); by_evaluation.
Qed.

(** X7: the graph holds [get1st] exactly when [num_files] is 1, and
    holds each of the seven nodes of the template branch exactly when
    [num_files] is not 1, also when it is below 1. *)
Theorem branch_by_number_of_files (env : Env) (a : Args) :
  ∃ s, init_anat_template_wf env a = inr s
  ∧ ("get1st" ∈ wf_nodes (wf s) ↔ num_files a = 1)
  ∧ Forall (λ x, x ∈ wf_nodes (wf s) ↔ num_files a ≠ 1)
      ["anat_conform_xfm"; "clip_preinu"; "n4_correct"; "anat_merge";
       "anat_reorient"; "merge_xfm"; "concat_xfms"].
Proof.
  builder_branches a; run_builder; cbn [wf_nodes wf];
    (split; [|repeat first [apply Forall_nil_2 | apply Forall_cons_2]]).
  all: split; intros Hx;
    first [ done | by_evaluation
          | by (apply (bool_decide_pack _) in Hx; vm_compute in Hx) ].
Qed.

(** X8: the returned workflow carries the [name] argument, and it has
    a description exactly when [num_files] is above 1; the description
    is then the text made from [contrast], [num_files] and the
    FreeSurfer version.  A call with [num_files] below 1 builds the
    template branch without a description. *)
Theorem description_only_above_one_file (env : Env) (a : Args) :
  ∃ s, init_anat_template_wf env a = inr s
  ∧ wf_name (wf s) = name a
  ∧ wf_desc (wf s) = (if 1 <? num_files a then Some (desc_text env a) else None)
  ∧ (is_Some (wf_desc (wf s)) ↔ 1 < num_files a).
Proof.
  builder_branches a; run_builder; cbn [wf_name wf_desc wf];
    (split; [reflexivity|]); (split; [vm_compute; reflexivity|]);
    (split; [intros [? ?]; first [done | lia] | intros ?; first [done | lia]]).
Qed.

(** X10: the thread budget of a list never exceeds the cap nor the
    length of the list; it is at least 1 exactly when the list is not
    empty and the cap is at least 1, and it is the cap itself when the
    cap is 0 or negative. *)
Theorem thread_budget_bounds (in_list : list PyVal) (maximum : Z) :
  ∃ t, _set_threads (VList in_list) maximum = Some t
  ∧ t ≤ maximum
  ∧ t ≤ Z.of_nat (length in_list)
  ∧ (1 ≤ t ↔ in_list ≠ [] ∧ 1 ≤ maximum)
  ∧ (maximum ≤ 0 → t = maximum).
Proof.
  eexists. split; [apply set_threads_list|].
  split; [lia|]. split; [lia|]. split; [|lia].
  destruct in_list as [|x l]; cbn [length].
  - split; [intros ?; exfalso; lia | by intros [? _]].
  - split; [intros ?; split; [done | lia] | intros [_ ?]; lia].
Qed.


(** X12: with exactly one file the options are not read: two calls
    with [num_files = 1] build the same node objects and the same
    edges whatever their [omp_nthreads], [longitudinal],
    [bspline_fitting_distance] and [sloppy], and neither has a
    description. *)
Theorem single_image_ignores_options (env : Env) (a b : Args) :
  num_files a = 1 → num_files b = 1 →
  structure (init_anat_template_wf env a) = structure (init_anat_template_wf env b)
  ∧ description (init_anat_template_wf env a) = None
  ∧ description (init_anat_template_wf env b) = None.
Proof.
  destruct a as [c nf omp lg bs sl nm], b as [c' nf' omp' lg' bs' sl' nm'].
  cbn [num_files]. intros -> ->. repeat split; vm_compute; reflexivity.
Qed.

Lemma single_image_ignores_options_witness :
  num_files docstring_call = 1
  ∧ num_files (mkArgs "T2w" 1 8 true 100 true "other") = 1
  ∧ structure (init_anat_template_wf sample_env docstring_call)
    = structure (init_anat_template_wf sample_env
                   (mkArgs "T2w" 1 8 true 100 true "other"))
  ∧ description (init_anat_template_wf sample_env docstring_call) = None
  ∧ description (init_anat_template_wf sample_env
                   (mkArgs "T2w" 1 8 true 100 true "other")) = None.
Proof.
  split; [reflexivity|]. split; [reflexivity|].
  exact (single_image_ignores_options sample_env docstring_call
           (mkArgs "T2w" 1 8 true 100 true "other") eq_refl eq_refl).
Defined.

(** X13: among calls with the same [num_files], the options reach the
    graph in three places only: the bias-correction node, the
    registration/averaging node, and the cap on the thread-budget
    edge.  The node names, every other node object and the edges
    without that cap are the same. *)
Theorem options_reach_two_nodes_and_one_edge (env : Env) (a b : Args) :
  num_files a = num_files b →
  ∃ s t, init_anat_template_wf env a = inr s
  ∧ init_anat_template_wf env b = inr t
  ∧ wf_nodes (wf s) = wf_nodes (wf t)
  ∧ nodes_without_options s = nodes_without_options t
  ∧ without_cap <$> wf_edges (wf s) = without_cap <$> wf_edges (wf t).
Proof.
  destruct a as [c nf omp lg bs sl nm], b as [c' nf' omp' lg' bs' sl' nm'].
  cbn [num_files]. intros <-.
  unfold init_anat_template_wf, init_anat_template_wf_body. cbn [num_files].
  destruct (Z.ltb_spec 1 nf); destruct (Z.eqb_spec nf 1); try lia;
    match goal with
    | |- ∃ s t, ?r = inr s ∧ ?r' = inr t ∧ _ =>
        let v := eval vm_compute in r in
        let v' := eval vm_compute in r' in
        lazymatch v with
        | inr ?x =>
            lazymatch v' with
            | inr ?y => exists x, y
            end
        end
    end;
    do 4 (split; [vm_compute; reflexivity|]); vm_compute; reflexivity.
Qed.

Lemma options_reach_two_nodes_and_one_edge_witness :
  num_files three_images_call = num_files (mkArgs "T2w" 3 8 true 100 true "other")
  ∧ ∃ s t, init_anat_template_wf sample_env three_images_call = inr s
  ∧ init_anat_template_wf sample_env (mkArgs "T2w" 3 8 true 100 true "other") = inr t
  ∧ wf_nodes (wf s) = wf_nodes (wf t)
  ∧ nodes_without_options s = nodes_without_options t
  ∧ without_cap <$> wf_edges (wf s) = without_cap <$> wf_edges (wf t).
Proof.
  split; [reflexivity|].
  exact (options_reach_two_nodes_and_one_edge sample_env three_images_call
           (mkArgs "T2w" 3 8 true 100 true "other") eq_refl).
Defined.

(** X14: resource hints.  In the template branch the only node with a
    memory hint is [anat_merge], the only node with a process limit is
    [n4_correct], limited to one process whatever [omp_nthreads] is,
    and the nodes run without submitting are [merge_xfm] and
    [concat_xfms]; with one file no node has any of these. *)
Theorem resource_hints (env : Env) (a : Args) :
  ∃ s, init_anat_template_wf env a = inr s
  ∧ nodes_where (λ n, bool_decide (is_Some (mem_gb n))) s
    = (if num_files a =? 1 then [] else ["anat_merge"])
  ∧ nodes_where (λ n, bool_decide (is_Some (n_procs n))) s
    = (if num_files a =? 1 then [] else ["n4_correct"])
  ∧ Forall (λ n, n_procs n = None ∨ n_procs n = Some 1) (graph_nodes s)
  ∧ nodes_where run_without_submitting s
    = (if num_files a =? 1 then [] else ["merge_xfm"; "concat_xfms"]).
Proof.
  builder_branches a; run_builder;
    (split; [vm_compute; reflexivity|]); (split; [vm_compute; reflexivity|]);
    (split; [|vm_compute; reflexivity]).
  all: match goal with
       | |- Forall _ (graph_nodes ?S) =>
           let v := eval vm_compute in (graph_nodes S) in
           change (graph_nodes S) with v;
           repeat (constructor; [first [by left | by right]|]); constructor
       end.
Qed.

(** X15: whenever [num_files] is not 1, the reference [anat_ref] is
    fed by the reorientation node alone, which receives the output of
    the registration/averaging node alone; no input of the output node
    is set to a constant, and the graph has eleven nodes. *)
Theorem template_branch_outputs (env : Env) (a : Args) :
  num_files a ≠ 1 →
  ∃ s, init_anat_template_wf env a = inr s
  ∧ wf_nodes (wf s)
    = ["inputnode"; "anat_ref_dimensions"; "anat_conform"; "outputnode";
       "anat_conform_xfm"; "clip_preinu"; "anat_merge"; "n4_correct";
       "anat_reorient"; "merge_xfm"; "concat_xfms"]
  ∧ edges_into_port s "outputnode" "anat_ref"
    = [mkEdge "anat_reorient" (Port "out_file") "outputnode" "anat_ref"]
  ∧ edges_into s "anat_reorient"
    = [mkEdge "anat_merge" (Port "out_file") "anat_reorient" "in_file"]
  ∧ (∃ r, graph_node s "anat_reorient" = Some r
     ∧ interface r = Reorient ∧ iterfield r = None ∧ inputs r = [])
  ∧ (∃ out, graph_node s "outputnode" = Some out ∧ inputs out = []).
Proof.
  intros Hmany. builder_branches a; run_builder;
    repeat (split; [vm_compute; reflexivity|]);
    (split; found; repeat split; vm_compute; reflexivity).
Qed.

Lemma template_branch_outputs_witness :
  num_files zero_call ≠ 1
  ∧ ∃ s, init_anat_template_wf sample_env zero_call = inr s
  ∧ wf_nodes (wf s)
    = ["inputnode"; "anat_ref_dimensions"; "anat_conform"; "outputnode";
       "anat_conform_xfm"; "clip_preinu"; "anat_merge"; "n4_correct";
       "anat_reorient"; "merge_xfm"; "concat_xfms"]
  ∧ edges_into_port s "outputnode" "anat_ref"
    = [mkEdge "anat_reorient" (Port "out_file") "outputnode" "anat_ref"]
  ∧ edges_into s "anat_reorient"
    = [mkEdge "anat_merge" (Port "out_file") "anat_reorient" "in_file"]
  ∧ (∃ r, graph_node s "anat_reorient" = Some r
     ∧ interface r = Reorient ∧ iterfield r = None ∧ inputs r = [])
  ∧ (∃ out, graph_node s "outputnode" = Some out ∧ inputs out = []).
Proof.
  split; [discriminate|].
  exact (template_branch_outputs sample_env zero_call ltac:(discriminate)).
Defined.

(** ** Running the template branch *)








Section TemplateRuns.

Variable run_interface :
  InterfaceClass → list (string * PyVal) → option (list (string * PyVal)).
Variable add_suffix : PyVal → list PyVal → option PyVal.





Lemma registration_inputs (s : BuildState) (upstream : list (string * NodeResult))
    (cap : Z) (conformed corrected : list PyVal) :
  edges_into s "anat_merge"
    = [mkEdge "anat_conform" (PortFn "out_file" Fn_set_threads [VInt cap])
              "anat_merge" "num_threads";
       mkEdge "anat_conform" (PortFn "out_file" Fn_add_suffix [VStr "_template"])
              "anat_merge" "out_file";
       mkEdge "n4_correct" (Port "output_image") "anat_merge" "in_files"] →
  outs_port upstream "anat_conform" "out_file" = Some (VList conformed) →
  outs_port upstream "n4_correct" "output_image" = Some (VList corrected) →
  connected_inputs add_suffix s upstream "anat_merge"
  = (name ← add_suffix (VList conformed) [VStr "_template"];
     Some [("num_threads", VInt (Z.min (Z.of_nat (length conformed)) cap));
           ("out_file", name);
           ("in_files", VList corrected)]).
Proof.
  intros Hedges Hconformed Hcorrected.
  unfold connected_inputs. rewrite Hedges. cbn.
  rewrite Hconformed, Hcorrected. cbn. rewrite py_min_spec.
  by destruct (add_suffix _ _).
Qed.

End TemplateRuns.



Example bias_correction_of_two_images :
  ∃ s, init_anat_template_wf sample_env three_images_call = inr s
  ∧ (run_nodes sample_template_steps (λ _ _, None) s ["clip_preinu"; "n4_correct"]
       sample_conformed
       ≫= λ outs, outs_port outs "n4_correct" "output_image")
    = Some (VList [VStr "n4_clip_conf1.nii"; VStr "n4_clip_conf2.nii"]).
Proof. run_builder. vm_compute. reflexivity. Qed.



Example conform_transforms_of_two_images :
  ∃ s, init_anat_template_wf sample_env three_images_call = inr s
  ∧ (run_nodes sample_template_steps (λ _ _, None) s ["anat_conform_xfm"]
       sample_conformed
       ≫= λ outs, outs_port outs "anat_conform_xfm" "out_lta")
    = Some (VList [VStr "run1.nii_to_conf1.nii"; VStr "run2.nii_to_conf2.nii"]).
Proof. run_builder. vm_compute. reflexivity. Qed.

(** X18: in the template branch the registration/averaging node
    [anat_merge] receives three inputs over its edges, in this order:
    [num_threads], the smaller of the number of conformed images and
    [omp_nthreads]; [out_file], the result of [add_suffix] on the list
    of conformed images with the suffix "_template"; and [in_files],
    the bias-corrected images.  If [add_suffix] fails, the node gets
    no inputs. *)
Theorem registration_receives
    (add_suffix : PyVal → list PyVal → option PyVal)
    (env : Env) (a : Args) (conformed corrected : list PyVal)
    (upstream : list (string * NodeResult)) :
  num_files a ≠ 1 →
  outs_port upstream "anat_conform" "out_file" = Some (VList conformed) →
  outs_port upstream "n4_correct" "output_image" = Some (VList corrected) →
  ∃ s, init_anat_template_wf env a = inr s
  ∧ connected_inputs add_suffix s upstream "anat_merge"
    = (name ← add_suffix (VList conformed) [VStr "_template"];
       Some [("num_threads",
              VInt (Z.min (Z.of_nat (length conformed)) (omp_nthreads a)));
             ("out_file", name);
             ("in_files", VList corrected)]).
Proof.
  intros Hmany Hconformed Hcorrected. builder_branches a; run_builder;
    apply registration_inputs; first [done | vm_compute; reflexivity].
Qed.

Lemma registration_receives_witness :
  num_files three_images_call ≠ 1
  ∧ outs_port sample_conformed "anat_conform" "out_file"
    = Some (VList [VStr "conf1.nii"; VStr "conf2.nii"])
  ∧ outs_port sample_conformed "n4_correct" "output_image"
    = Some (VList [VStr "n4_clip_conf1.nii"; VStr "n4_clip_conf2.nii"])
  ∧ ∃ s, init_anat_template_wf sample_env three_images_call = inr s
  ∧ connected_inputs (λ _ _, Some (VStr "conf1_template.nii")) s sample_conformed
      "anat_merge"
    = (name ← Some (VStr "conf1_template.nii");
       Some [("num_threads",
              VInt (Z.min (Z.of_nat (length [VStr "conf1.nii"; VStr "conf2.nii"]))
                          (omp_nthreads three_images_call)));
             ("out_file", name);
             ("in_files", VList [VStr "n4_clip_conf1.nii"; VStr "n4_clip_conf2.nii"])]).
Proof.
  split; [discriminate|]. split; [reflexivity|]. split; [reflexivity|].
  exact (registration_receives (λ _ _, Some (VStr "conf1_template.nii"))
           sample_env three_images_call
           [VStr "conf1.nii"; VStr "conf2.nii"]
           [VStr "n4_clip_conf1.nii"; VStr "n4_clip_conf2.nii"]
           sample_conformed ltac:(discriminate) eq_refl eq_refl).
Defined.
